(** * jobArena backend: the request handlers of [server.js]

    A shallow embedding of the Express handlers of [src/server.js] (login,
    company test configuration, test-session start) over the data model of
    [src/models/Job.js], followed by the properties the specification states
    about them.

    Conventions.
    - A JavaScript number is an integer [Z]; the fractional part of a JSON
      number plays no role in the handlers except in [slice], which truncates.
    - A request body is read at the types the handler and the Job schema give
      its fields; a field that is absent (or null) is [None].
    - Upstream question records are untyped JSON: they are [value]s.
    - The handlers run after the [auth] and [checkRole] middleware, which live
      in [middleware/auth.js]; a handler receives the authenticated user id.
    - The document store is a list of jobs in natural order; [findOne] and
      [findOneAndUpdate] act on the first document that matches. A quest
      in the store has the paths of [questSchema] and no other: an object
      pushed onto [quests] is cast to that schema, which is strict, and a
      path the schema does not declare reads as [undefined] on a quest
      read back. Document ids of jobs and quests are not part of the model.
    - The store is reachable: a store call that rejects, which the [catch]
      of every handler answers with 500, is outside the model. *)

From Stdlib Require Import List String Ascii ZArith Bool Lia Permutation DecimalString.
Import ListNotations.

Open Scope string_scope.
Open Scope Z_scope.

Set Implicit Arguments.
Set Warnings "-register-all".

(** ** JavaScript values *)

Module JS.

(** JSON data as [JSON.parse] delivers it, plus [undefined]. *)
Inductive value : Type :=
| VUndefined
| VNull
| VBool (b : bool)
| VNum (n : Z)
| VStr (s : string)
| VArr (items : list value)
| VObj (props : list (string * value)).

(** [ToBoolean]: the truthiness every [!x] and [x || d] of the source uses. *)
Class ToBoolean (A : Type) : Type := truthy : A -> bool.

#[export] Instance ToBoolean_bool : ToBoolean bool := fun b => b.
#[export] Instance ToBoolean_number : ToBoolean Z := fun n => negb (n =? 0).
#[export] Instance ToBoolean_string : ToBoolean string :=
  fun s => match s with EmptyString => false | String _ _ => true end.
#[export] Instance ToBoolean_array {A : Type} : ToBoolean (list A) := fun _ => true.
#[export] Instance ToBoolean_optional {A : Type} `{ToBoolean A} : ToBoolean (option A) :=
  fun o => match o with Some a => truthy a | None => false end.
#[export] Instance ToBoolean_value : ToBoolean value :=
  fun v =>
    match v with
    | VUndefined | VNull => false
    | VBool b => b
    | VNum n => truthy n
    | VStr s => truthy s
    | VArr _ | VObj _ => true
    end.

(** [x || d] on an optional typed field. *)
Definition or_default {A : Type} `{ToBoolean A} (x : option A) (d : A) : A :=
  match x with
  | Some a => if truthy a then a else d
  | None => d
  end.

(** [v || d] on values. *)
Definition value_or (v d : value) : value := if truthy v then v else d.

(** Decimal text of an array index and of an integer number. *)
Definition index_key (i : nat) : string := NilZero.string_of_uint (Nat.to_uint i).
Definition number_text (n : Z) : string := NilZero.string_of_int (Z.to_int n).

(** *** Plain objects as ordered property lists *)

Fixpoint get_prop (k : string) (props : list (string * value)) : value :=
  match props with
  | [] => VUndefined
  | (k', v) :: rest => if String.eqb k k' then v else get_prop k rest
  end.

(** Assignment keeps the position of a key already present and appends a new
    one, as object literals and spreads do. *)
Fixpoint set_prop (k : string) (v : value) (props : list (string * value))
  : list (string * value) :=
  match props with
  | [] => [(k, v)]
  | (k', v') :: rest =>
      if String.eqb k k' then (k, v) :: rest else (k', v') :: set_prop k v rest
  end.

Fixpoint string_chars (s : string) : list value :=
  match s with
  | EmptyString => []
  | String c rest => VStr (String c EmptyString) :: string_chars rest
  end.

Definition indexed (items : list value) : list (string * value) :=
  combine (map index_key (seq 0 (List.length items))) items.

(** [{...q}]: the own enumerable properties of [q]. Spreading [null],
    [undefined], a number or a boolean copies nothing. *)
Definition spread (q : value) : list (string * value) :=
  match q with
  | VObj props => props
  | VArr items => indexed items
  | VStr s => indexed (string_chars s)
  | _ => []
  end.

(** [q.k] for the keys the handler reads ([id], [options], [question],
    [topic]): none of them is a property of a built-in prototype, so the
    read is an own-property lookup on objects and [undefined] on arrays and
    primitives. Reading a property of [null] or [undefined] throws. *)
Definition member (q : value) (k : string) : option value :=
  match q with
  | VUndefined | VNull => None
  | VObj props => Some (get_prop k props)
  | _ => Some VUndefined
  end.

Definition Array_isArray (v : value) : bool :=
  match v with VArr _ => true | _ => false end.

(** [a.slice(0, e)] for an integer [e]: a negative [e] counts from the end. *)
Definition slice0 {A : Type} (a : list A) (e : Z) : list A :=
  let len := Z.of_nat (List.length a) in
  let final := if e <? 0 then Z.max (len + e) 0 else Z.min e len in
  firstn (Z.to_nat final) a.

(** *** [Array.prototype.sort] with a comparator that ignores its arguments

    [a.sort(() => Math.random() - 0.5)]: the engine orders the elements by
    asking the comparator, whose answer is the sign of a fresh random draw.
    The model is an insertion sort; [sign n] is the sign of the [n]-th draw
    of the process and the second component of the result is the number of
    draws made so far. ECMAScript leaves the resulting order to the engine
    for such a comparator; the properties below use two facts only, both
    proved for this sort: the result is a rearrangement of the array, and
    the rearrangement does not depend on what the elements are. *)
Section Sort.
Variable A : Type.
Variable sign : nat -> comparison.

(** Insert [x] into the already placed elements, kept in reverse order:
    [x] moves left past [y] while the comparator answers positive. *)
Fixpoint insert (x : A) (placed : list A) (n : nat) : list A * nat :=
  match placed with
  | [] => ([x], n)
  | y :: rest =>
      match sign n with
      | Gt => let '(rest', n') := insert x rest (S n) in (y :: rest', n')
      | _ => (x :: y :: rest, S n)
      end
  end.

Fixpoint sort_from (todo placed : list A) (n : nat) : list A * nat :=
  match todo with
  | [] => (rev placed, n)
  | x :: rest => let '(placed', n') := insert x placed n in sort_from rest placed' n'
  end.

Definition sort (a : list A) (n : nat) : list A * nat := sort_from a [] n.
End Sort.

End JS.

Import JS.

(** ** The data model of [models/Job.js] and of the handlers *)

Definition ObjectId : Type := string.

(** The test configuration object built by the company-tests handler: the
    body of its 200 response and the value it hands to [$push]. *)
Record TestConfig : Type := {
  testId : string;
  company : ObjectId;
  name : string;
  description : option string;
  duration : Z;
  topics : list string;
  questionsPerTopic : Z;
  passingScore : Z;
  isActive : bool;
  createdAt : string
}.

(** A quest as the store holds it: the paths of [questSchema]
    ([models/Job.js], lines 3-46). A required path can be absent from an
    entry written by an update, which runs no validators. *)
Record Quest : Type := {
  quest_type : option string;
  quest_title : option string;
  quest_description : option string;
  quest_difficulty : string;
  quest_duration : option Z;
  quest_questions : option Z;
  quest_passingScore : option Z;
  quest_enabled : bool;
  quest_topics : list string;
  quest_questionsPerTopic : Z
}.

(** What [$push: { quests: testConfig }] stores: the object cast to
    [questSchema]. The paths the schema declares are kept ([description],
    [duration], [topics], [questionsPerTopic], [passingScore]); the others
    ([testId], [company], [name], [isActive], [createdAt]) are dropped; the
    declared defaults fill [difficulty] and [enabled]. *)
Definition cast_quest (cfg : TestConfig) : Quest :=
  {| quest_type := None;
     quest_title := None;
     quest_description := description cfg;
     quest_difficulty := "Medium";
     quest_duration := Some (duration cfg);
     quest_questions := None;
     quest_passingScore := Some (passingScore cfg);
     quest_enabled := true;
     quest_topics := topics cfg;
     quest_questionsPerTopic := questionsPerTopic cfg |}.

(** [q.path] on a quest read back from the store, for a [path] that
    [questSchema] does not declare ([testId], [isActive]). *)
Definition undeclared (q : Quest) (path : string) : value := VUndefined.

Inductive JobType : Type := FullTime | PartTime | Contract | Internship.

Record Job : Type := {
  job_company : ObjectId;
  title : string;
  department : string;
  location : string;
  job_type : JobType;
  job_description : string;
  requirements : list string;
  salary_min : string;
  salary_max : string;
  quests : list Quest;
  job_isActive : bool;
  job_createdAt : string
}.

(** ** The static topic table *)

Definition AVAILABLE_TOPICS : list (string * string) :=
  [ ("Mixture and Alligation", "MixtureAndAlligation");
    ("Profit and Loss", "ProfitAndLoss");
    ("Pipes and Cisterns", "PipesAndCistern");
    ("Age", "Age");
    ("Permutation and Combination", "PermutationAndCombination");
    ("Speed Time Distance", "SpeedTimeDistance");
    ("Simple Interest", "SimpleInterest");
    ("Calendars", "Calendar") ].

(** [AVAILABLE_TOPICS] is an object literal, so a read [AVAILABLE_TOPICS[k]]
    that finds no own property continues on [Object.prototype]. These are
    the property names it finds there. *)
Definition Object_prototype : list string :=
  [ "constructor"; "__defineGetter__"; "__defineSetter__"; "hasOwnProperty";
    "__lookupGetter__"; "__lookupSetter__"; "isPrototypeOf";
    "propertyIsEnumerable"; "toString"; "valueOf"; "__proto__";
    "toLocaleString" ].

Inductive property : Type :=
| Own (endpoint : string)
| Inherited (key : string)
| Missing.

Fixpoint own_property (k : string) (table : list (string * string)) : option string :=
  match table with
  | [] => None
  | (k', v) :: rest => if String.eqb k k' then Some v else own_property k rest
  end.

(** [AVAILABLE_TOPICS[topic]] *)
Definition AVAILABLE_TOPICS_get (topic : string) : property :=
  match own_property topic AVAILABLE_TOPICS with
  | Some endpoint => Own endpoint
  | None =>
      if existsb (String.eqb topic) Object_prototype then Inherited topic else Missing
  end.

#[export] Instance ToBoolean_property : ToBoolean property :=
  fun p =>
    match p with
    | Own endpoint => truthy endpoint
    | Inherited _ => true
    | Missing => false
    end.

(** The text a template literal gives a looked-up endpoint. *)
Definition property_text (p : property) : string :=
  match p with
  | Own endpoint => endpoint
  | Missing => "undefined"
  | Inherited "__proto__" => "[object Object]"
  | Inherited "constructor" => "function Object() { [native code] }"
  | Inherited key => "function " ++ key ++ "() { [native code] }"
  end.

(** ** Responses *)

Record TopicEntry : Type := {
  topic_name : string;
  questions : list value
}.

Record SessionPayload : Type := {
  sessionId : string;
  session_testId : string;
  startTime : string;
  session_duration : option Z;
  session_topics : list TopicEntry;
  totalQuestions : nat
}.

Record PublicUser : Type := {
  pu_id : ObjectId;
  pu_email : string;
  pu_name : string;
  pu_role : string;
  pu_companyName : option string
}.

Inductive body : Type :=
| ErrorBody (error : string)
| LoginBody (token : string) (user : PublicUser)
| ConfigBody (testConfig : TestConfig)
| SessionBody (payload : SessionPayload).

Record response : Type := {
  status : Z;
  json : body
}.

(** [res.status(s).json({ error })] and [res.json(b)] *)
Definition res_error (s : Z) (error : string) : response :=
  {| status := s; json := ErrorBody error |}.
Definition res_json (b : body) : response := {| status := 200; json := b |}.

(** ** Effects of a handler

    A handler reads the clock, draws random numbers and calls the question
    source. The environment fixes what those give; the world records how
    many draws were made and which URLs were requested, in order. *)

Record Env : Type := {
  (** sign of [Math.random() - 0.5] at the [n]-th draw *)
  Math_random_sign : nat -> comparison;
  (** the data of the response to the [n]-th request when it goes to [url];
      [None] when [axios.get] rejects *)
  upstream : nat -> string -> option value;
  (** [new Date().toISOString()] and [Date.now()] *)
  Date_toISOString : string;
  Date_now : Z
}.

Record World : Type := {
  draws : nat;
  requests : list string
}.

Inductive exn : Type :=
| TypeError
| RequestFailed (url : string)
| Failure (message : string).

Inductive outcome (A : Type) : Type :=
| Returned (a : A)
| Thrown (e : exn).
Arguments Returned {A} a.
Arguments Thrown {A} e.

Definition M (A : Type) : Type := World -> outcome A * World.

Definition ret {A : Type} (a : A) : M A := fun w => (Returned a, w).

Definition bind {A B : Type} (c : M A) (k : A -> M B) : M B :=
  fun w =>
    match c w with
    | (Returned a, w') => k a w'
    | (Thrown e, w') => (Thrown e, w')
    end.

Definition lift {A : Type} (o : outcome A) : M A := fun w => (o, w).

Notation "x <- c ;; k" := (bind c (fun x => k))
  (at level 61, c at next level, right associativity).

(** [await axios.get(url)], giving [response.data] *)
Definition axios_get (env : Env) (url : string) : M value :=
  fun w =>
    let w' := {| draws := draws w; requests := requests w ++ [url] |} in
    match upstream env (List.length (requests w)) url with
    | Some data => (Returned data, w')
    | None => (Thrown (RequestFailed url), w')
    end.

(** [questions.sort(() => Math.random() - 0.5)] *)
Definition sort_random (env : Env) (questions : list value) : M (list value) :=
  fun w =>
    let '(sorted, n) := sort (Math_random_sign env) questions (draws w) in
    (Returned sorted, {| draws := n; requests := requests w |}).

Fixpoint map_outcome {A B : Type} (f : A -> outcome B) (l : list A) : outcome (list B) :=
  match l with
  | [] => Returned []
  | x :: rest =>
      match f x with
      | Thrown e => Thrown e
      | Returned y =>
          match map_outcome f rest with
          | Thrown e => Thrown e
          | Returned ys => Returned (y :: ys)
          end
      end
  end.

(** ** POST /api/tests/:testId/start *)

(** [v === s] for a string [s] *)
Definition strict_equal (v : value) (s : string) : bool :=
  match v with
  | VStr s' => String.eqb s' s
  | _ => false
  end.

(** [q.testId === testId] on a stored quest *)
Definition has_testId (tid : string) (q : Quest) : bool :=
  strict_equal (undeclared q "testId") tid.

(** [Job.findOne({ 'quests.testId': testId })]: the first job one of whose
    stored quests has the id. *)
Definition Job_findOne_by_testId (jobs : list Job) (tid : string) : option Job :=
  find (fun job => existsb (has_testId tid) (quests job)) jobs.

Definition API_BASE : string := "https://aptitude-api.vercel.app/".

(** The callback of [.map] at lines 240-245:
    [{ ...q, topic, options: q.options || [], question: q.question || '' }] *)
Definition tagQuestion (topic : string) (q : value) : outcome value :=
  match member q "options", member q "question" with
  | Some options, Some question =>
      Returned
        (VObj
           (set_prop "question" (value_or question (VStr EmptyString))
              (set_prop "options" (value_or options (VArr []))
                 (set_prop "topic" (VStr topic) (spread q)))))
  | _, _ => Thrown TypeError
  end.

(** The body of the loop over [testConfig.topics] up to [selectedQuestions]. *)
Definition topic_url (topic : string) : string :=
  let endpoint := AVAILABLE_TOPICS_get topic in
  API_BASE ++ property_text endpoint.

(** [Array.isArray(response.data) ? response.data : [response.data]] *)
Definition question_pool (data : value) : list value :=
  match data with
  | VArr items => items
  | _ => [data]
  end.

Definition selectQuestions (env : Env) (cfg : Quest) (topic : string)
  : M (list value) :=
  data <- axios_get env (topic_url topic) ;;
  let questions := question_pool data in
  sorted <- sort_random env questions ;;
  lift (map_outcome (tagQuestion topic) (slice0 sorted (quest_questionsPerTopic cfg))).

(** The [test] object the loop fills in. *)
Record Test : Type := {
  test_testId : string;
  test_userId : ObjectId;
  test_startTime : string;
  test_duration : option Z;
  test_topics : list TopicEntry;
  test_totalQuestions : nat
}.

Fixpoint for_topics (env : Env) (cfg : Quest) (todo : list string) (test : Test)
  : M Test :=
  match todo with
  | [] => ret test
  | topic :: rest =>
      selectedQuestions <- selectQuestions env cfg topic ;;
      for_topics env cfg rest
        {| test_testId := test_testId test;
           test_userId := test_userId test;
           test_startTime := test_startTime test;
           test_duration := test_duration test;
           test_topics :=
             test_topics test ++ [{| topic_name := topic; questions := selectedQuestions |}];
           test_totalQuestions :=
             (test_totalQuestions test + List.length selectedQuestions)%nat |}
  end.

(** [res.json] writes an object without its [undefined] properties. *)
Definition is_undefined (v : value) : bool :=
  match v with VUndefined => true | _ => false end.

Definition json_object (props : list (string * value)) : value :=
  VObj (filter (fun p => negb (is_undefined (snd p))) props).

(** The projection of a question at lines 264-269. *)
Definition publicQuestion (q : value) : value :=
  let read k := match member q k with Some v => v | None => VUndefined end in
  json_object
    [ ("id", read "id");
      ("question", read "question");
      ("options", read "options");
      ("topic", read "topic") ].

Definition publicTopic (t : TopicEntry) : TopicEntry :=
  {| topic_name := topic_name t; questions := map publicQuestion (questions t) |}.

(** The quest entry the handler works with: the first entry with the
    requested id in the first job that has one. *)
Definition matched_quest (jobs : list Job) (tid : string) : option Quest :=
  match Job_findOne_by_testId jobs tid with
  | Some job => find (has_testId tid) (quests job)
  | None => None
  end.

(** The [test] object as created at lines 223-230. *)
Definition new_test (env : Env) (user_id : ObjectId) (tid : string) (testConfig : Quest)
  : Test :=
  {| test_testId := tid;
     test_userId := user_id;
     test_startTime := Date_toISOString env;
     test_duration := quest_duration testConfig;
     test_topics := [];
     test_totalQuestions := 0 |}.

(** The object given to [res.json] at lines 257-272. *)
Definition session_payload (env : Env) (user_id : ObjectId) (tid : string) (test : Test)
  : SessionPayload :=
  {| sessionId := tid ++ "-" ++ user_id ++ "-" ++ number_text (Date_now env);
     session_testId := test_testId test;
     startTime := test_startTime test;
     session_duration := test_duration test;
     session_topics := map publicTopic (test_topics test);
     totalQuestions := test_totalQuestions test |}.

Definition startSession (env : Env) (jobs : list Job) (user_id : ObjectId) (tid : string)
  : World -> response * World :=
  fun w =>
    match Job_findOne_by_testId jobs tid with
    | None => (res_error 404 "Test not found", w)
    | Some job =>
        match find (has_testId tid) (quests job) with
        | None => (res_error 404 "Test not found or inactive", w)
        | Some testConfig =>
            if negb (truthy (undeclared testConfig "isActive"))
            then (res_error 404 "Test not found or inactive", w)
            else
              let test := new_test env user_id tid testConfig in
              (* try { ... } catch (error) { res.status(500) ... } *)
              match for_topics env testConfig (quest_topics testConfig) test w with
              | (Thrown _, w') => (res_error 500 "Failed to start test", w')
              | (Returned test, w') =>
                  (res_json (SessionBody (session_payload env user_id tid test)), w')
              end
        end
    end.

(** ** POST /api/company/tests *)

(** The fields the handler destructures from [req.body]. *)
Record TestRequest : Type := {
  req_testId : option string;
  req_name : option string;
  req_description : option string;
  req_duration : option Z;
  req_topics : option (list string);
  req_questionsPerTopic : option Z;
  req_passingScore : option Z;
  req_isActive : option bool
}.

(** A required field passes the check [!x] when it is truthy. *)
Definition required {A : Type} `{ToBoolean A} (x : option A) : option A :=
  if truthy x then x else None.

(** The validation loop: the first topic [t] with [!AVAILABLE_TOPICS[t]]. *)
Definition invalid_topic (topics : list string) : option string :=
  find (fun topic => negb (truthy (AVAILABLE_TOPICS_get topic))) topics.

Definition push_quest (job : Job) (cfg : TestConfig) : Job :=
  {| job_company := job_company job;
     title := title job;
     department := department job;
     location := location job;
     job_type := job_type job;
     job_description := job_description job;
     requirements := requirements job;
     salary_min := salary_min job;
     salary_max := salary_max job;
     quests := quests job ++ [cast_quest cfg];
     job_isActive := job_isActive job;
     job_createdAt := job_createdAt job |}.

(** [Job.findOneAndUpdate({ company }, { $push: { quests: cfg } })]: the
    first job of the company gets the entry, cast to the quest schema; no
    job, no change. *)
Fixpoint Job_findOneAndUpdate_push (jobs : list Job) (owner : ObjectId) (cfg : TestConfig)
  : list Job :=
  match jobs with
  | [] => []
  | job :: rest =>
      if String.eqb (job_company job) owner
      then push_quest job cfg :: rest
      else job :: Job_findOneAndUpdate_push rest owner cfg
  end.

(** [isActive !== false] *)
Definition not_false (x : option bool) : bool :=
  match x with Some false => false | _ => true end.

(** The object literal [testConfig] at lines 181-192. *)
Definition testConfig_of (env : Env) (user_id : ObjectId) (req : TestRequest)
    (testId name : string) (topics : list string) (questionsPerTopic : Z) : TestConfig :=
  {| testId := testId;
     company := user_id;
     name := name;
     description := req_description req;
     duration := or_default (req_duration req) 45;
     topics := topics;
     questionsPerTopic := questionsPerTopic;
     passingScore := or_default (req_passingScore req) 60;
     isActive := not_false (req_isActive req);
     createdAt := Date_toISOString env |}.

Definition createTestConfig (env : Env) (jobs : list Job) (user_id : ObjectId)
    (req : TestRequest) : response * list Job :=
  match required (req_testId req), required (req_name req),
        required (req_topics req), required (req_questionsPerTopic req) with
  | Some testId, Some name, Some topics, Some questionsPerTopic =>
      match invalid_topic topics with
      | Some topic => (res_error 400 ("Invalid topic: " ++ topic), jobs)
      | None =>
          let testConfig :=
            testConfig_of env user_id req testId name topics questionsPerTopic in
          (res_json (ConfigBody testConfig),
           Job_findOneAndUpdate_push jobs user_id testConfig)
      end
  | _, _, _, _ => (res_error 400 "Missing required fields", jobs)
  end.

(** ** POST /api/auth/login

    The User model ([models/User.js]) and the token signer
    ([middleware/auth.js]) are parameters of the handler. *)
Section Login.
Variable User : Type.
Variable user_public : User -> PublicUser.
(** [User.findOne({ email })] *)
Variable User_findOne : value -> outcome (option User).
(** [user.comparePassword(password)] *)
Variable comparePassword : User -> value -> outcome bool.
Variable generateToken : User -> outcome string.

Definition login (email password : value) : response :=
  match User_findOne email with
  | Thrown _ => res_error 500 "Login failed"
  | Returned None => res_error 401 "Invalid credentials"
  | Returned (Some user) =>
      match comparePassword user password with
      | Thrown _ => res_error 500 "Login failed"
      | Returned false => res_error 401 "Invalid credentials"
      | Returned true =>
          match generateToken user with
          | Thrown _ => res_error 500 "Login failed"
          | Returned token => res_json (LoginBody token (user_public user))
          end
      end
  end.
End Login.

(** ** Notions the statements are written with *)


(** Everything of a job except its quest list. *)
Definition job_frame (job : Job) :=
  (job_company job, title job, department job, location job, job_type job,
   job_description job, requirements job, salary_min job, salary_max job,
   job_isActive job, job_createdAt job).

(** ** Sample data *)

Module Sample.

Definition record (i : Z) (answer : string) : value :=
  VObj [ ("id", VNum i);
         ("question", VStr "How old is A?");
         ("answer", VStr answer);
         ("options", VArr [VStr "10"; VStr "12"; VStr "14"]) ].

Definition pool (answer : string) : value :=
  VArr [record 1 answer; record 2 answer; record 3 answer].

(** The question source answers for the topics Age and Calendars only. *)
Definition source (answer : string) (n : nat) (url : string) : option value :=
  if String.eqb url "https://aptitude-api.vercel.app/Age" then Some (pool answer)
  else if String.eqb url "https://aptitude-api.vercel.app/Calendar"
       then Some (record 7 answer)
       else None.

Definition env_with (answer : string) : Env :=
  {| Math_random_sign := fun n => if Nat.even n then Gt else Lt;
     upstream := source answer;
     Date_toISOString := "2024-01-01T00:00:00.000Z";
     Date_now := 1704067200000 |}.

Definition env : Env := env_with "12".

Definition quest (tid : string) (names : list string) (quota : Z) (active : bool)
  : TestConfig :=
  {| testId := tid;
     company := "c1";
     name := "Aptitude round";
     description := None;
     duration := 45;
     topics := names;
     questionsPerTopic := quota;
     passingScore := 60;
     isActive := active;
     createdAt := "2024-01-01T00:00:00.000Z" |}.

(** A job of [owner] onto which the configurations [qs] were pushed. *)
Definition job (owner : ObjectId) (qs : list TestConfig) : Job :=
  {| job_company := owner;
     title := "Engineer";
     department := "R&D";
     location := "Pune";
     job_type := FullTime;
     job_description := "Builds things";
     requirements := ["JavaScript"];
     salary_min := "10";
     salary_max := "20";
     quests := map cast_quest qs;
     job_isActive := true;
     job_createdAt := "2024-01-01T00:00:00.000Z" |}.

Definition jobs : list Job :=
  [ job "c1" [quest "t1" ["Age"; "Calendars"] 2 true;
              quest "t2" ["Age"] (-1) true;
              quest "t3" ["Age"] 2 false;
              quest "t4" ["Age"; "Simple Interest"] 2 true] ].

Definition w0 : World := {| draws := 0; requests := [] |}.

(** A company account with its (hashed) password, and the User model
    over a store that holds this one account. *)
Definition acme : PublicUser :=
  {| pu_id := "c1";
     pu_email := "hr@acme.example";
     pu_name := "Acme HR";
     pu_role := "company";
     pu_companyName := Some "Acme" |}.

Definition findOne (email : value) : outcome (option PublicUser) :=
  match email with
  | VStr e => Returned (if String.eqb e (pu_email acme) then Some acme else None)
  | _ => Returned None
  end.

Definition comparePassword (u : PublicUser) (password : value) : outcome bool :=
  match password with
  | VStr p => Returned (String.eqb p "correct horse")
  | _ => Thrown (Failure "data and hash arguments required")
  end.

Definition generateToken (u : PublicUser) : outcome string :=
  Returned ("token-for-" ++ pu_id u).

Definition request (names : list string) (quota : Z) (minutes : option Z) : TestRequest :=
  {| req_testId := Some "t9";
     req_name := Some "Aptitude round";
     req_description := None;
     req_duration := minutes;
     req_topics := Some names;
     req_questionsPerTopic := Some quota;
     req_passingScore := Some 70;
     req_isActive := None |}.

End Sample.

(** ** The other routes of [server.js] *)

(** *** GET /api/topics *)



(** *** GET /api/company/jobs *)



(** The job [findOneAndUpdate({ company: owner }, ...)] updates. *)
Definition Job_findOne_by_company (jobs : list Job) (owner : ObjectId) : option Job :=
  find (fun job => String.eqb (job_company job) owner) jobs.

(** *** POST /api/auth/register

    As for login, the User model and the token signer are parameters; the
    users collection is a state the model reads and [save] extends. *)
Section Register.
Variable User : Type.
Variable UserStore : Type.
Variable user_public : User -> PublicUser.
(** [User.findOne({ email })] *)
Variable User_findOne : UserStore -> value -> outcome (option User).
(** [new User({ email, password, name, role, companyName })] *)
Variable User_new : value -> value -> value -> value -> value -> User.
(** [user.save()] *)
Variable User_save : UserStore -> User -> outcome UserStore.
Variable generateToken : User -> outcome string.

Definition register (users : UserStore) (email password name role companyName : value)
  : response * UserStore :=
  match User_findOne users email with
  | Thrown _ => (res_error 500 "Registration failed", users)
  | Returned (Some existingUser) => (res_error 400 "Email already registered", users)
  | Returned None =>
      let user := User_new email password name role companyName in
      match User_save users user with
      | Thrown _ => (res_error 500 "Registration failed", users)
      | Returned users' =>
          match generateToken user with
          | Thrown _ => (res_error 500 "Registration failed", users')
          | Returned token =>
              ({| status := 201; json := LoginBody token (user_public user) |}, users')
          end
      end
  end.
End Register.

(** *** More sample data *)

Module Fixtures.

(** A users collection as a list of accounts with their passwords. *)
Definition Account : Type := (PublicUser * string)%type.

Definition text (v : value) : string :=
  match v with VStr s => s | _ => EmptyString end.

Definition findOne (users : list Account) (email : value) : outcome (option Account) :=
  Returned (find (fun a => String.eqb (pu_email (fst a)) (text email)) users).

Definition new (email password name role companyName : value) : Account :=
  ({| pu_id := "id-" ++ text email;
      pu_email := text email;
      pu_name := text name;
      pu_role := text role;
      pu_companyName :=
        match companyName with VStr c => Some c | _ => None end |},
   text password).

Definition save (users : list Account) (a : Account) : outcome (list Account) :=
  match pu_email (fst a) with
  | EmptyString => Thrown (Failure "User validation failed")
  | _ => Returned (users ++ [a])%list
  end.

Definition comparePassword (a : Account) (password : value) : outcome bool :=
  Returned (String.eqb (snd a) (text password)).

Definition sign (a : Account) : outcome string :=
  Returned ("token-for-" ++ pu_id (fst a)).

(** A signer without its secret. *)
Definition sign_fails (a : Account) : outcome string :=
  Thrown (Failure "secretOrPrivateKey must have a value").

(** Two companies; the second owns two jobs, the first of them inactive. *)
Definition jobs : list Job :=
  [ Sample.job "c1" [Sample.quest "t1" ["Age"] 2 true];
    {| job_company := "c2";
       title := "Analyst";
       department := "Finance";
       location := "Mumbai";
       job_type := Contract;
       job_description := "Counts things";
       requirements := [];
       salary_min := "5";
       salary_max := "8";
       quests := [];
       job_isActive := false;
       job_createdAt := "2024-02-01T00:00:00.000Z" |};
    Sample.job "c2" [Sample.quest "t5" ["Calendars"] 1 true] ].




Definition request (tid : string) (names : list string) (active : option bool) : TestRequest :=
  {| req_testId := Some tid;
     req_name := Some "Second round";
     req_description := Some "Calendars only";
     req_duration := Some 30;
     req_topics := Some names;
     req_questionsPerTopic := Some 1;
     req_passingScore := None;
     req_isActive := active |}.

End Fixtures.

(** * Properties *)

(** ** The model at work *)

Example slice0_quota : slice0 [1; 2; 3] 2 = [1; 2].
Proof. reflexivity. Qed.

Example slice0_short_pool : slice0 [1; 2; 3] 5 = [1; 2; 3].
Proof. reflexivity. Qed.

Example slice0_negative : slice0 [1; 2; 3] (-1) = [1; 2].
Proof. reflexivity. Qed.

Example sort_alternating :
  sort (fun n => if Nat.even n then Gt else Lt) [1; 2; 3] 0 = ([2; 1; 3], 2%nat).
Proof. reflexivity. Qed.

Example lookup_key : AVAILABLE_TOPICS_get "Calendars" = Own "Calendar".
Proof. reflexivity. Qed.

Example lookup_unknown : AVAILABLE_TOPICS_get "Unknown Topic" = Missing.
Proof. reflexivity. Qed.

Example lookup_inherited : AVAILABLE_TOPICS_get "toString" = Inherited "toString".
Proof. reflexivity. Qed.

Example tagQuestion_null : tagQuestion "Age" VNull = Thrown TypeError.
Proof. reflexivity. Qed.

Example publicQuestion_strips :
  match tagQuestion "Age" (Sample.record 1 "12") with
  | Returned t =>
      publicQuestion t =
      VObj [ ("id", VNum 1);
             ("question", VStr "How old is A?");
             ("options", VArr [VStr "10"; VStr "12"; VStr "14"]);
             ("topic", VStr "Age") ]
  | Thrown _ => False
  end.
Proof. reflexivity. Qed.

Example login_ok :
  login (fun u => u) Sample.findOne Sample.comparePassword Sample.generateToken
    (VStr "hr@acme.example") (VStr "correct horse") =
  res_json (LoginBody "token-for-c1" Sample.acme).
Proof. reflexivity. Qed.

Example cast_drops_undeclared :
  cast_quest (Sample.quest "t1" ["Age"] 2 true) =
  {| quest_type := None;
     quest_title := None;
     quest_description := None;
     quest_difficulty := "Medium";
     quest_duration := Some 45;
     quest_questions := None;
     quest_passingScore := Some 60;
     quest_enabled := true;
     quest_topics := ["Age"];
     quest_questionsPerTopic := 2 |}.
Proof. reflexivity. Qed.

Example startSession_unknown :
  startSession Sample.env Sample.jobs "u1" "nope" Sample.w0 =
  (res_error 404 "Test not found", Sample.w0).
Proof. reflexivity. Qed.

(** ** Test configurations *)

Lemma required_Some (A : Type) `{ToBoolean A} (x : option A) (a : A) :
  required x = Some a -> x = Some a /\ truthy a = true.
Proof.
  unfold required. destruct x as [a'|]; simpl.
  - unfold truthy at 1, ToBoolean_optional.
    destruct (truthy a') eqn:E; [|discriminate]. intro I; injection I as <-. auto.
  - discriminate.
Qed.

Lemma createTestConfig_200 env jobs uid req r jobs' :
  createTestConfig env jobs uid req = (r, jobs') ->
  status r = 200 ->
  exists tid nm ts qpt,
    req_testId req = Some tid /\ truthy tid = true /\
    req_name req = Some nm /\ truthy nm = true /\
    req_topics req = Some ts /\
    req_questionsPerTopic req = Some qpt /\ truthy qpt = true /\
    invalid_topic ts = None /\
    r = res_json (ConfigBody (testConfig_of env uid req tid nm ts qpt)) /\
    jobs' = Job_findOneAndUpdate_push jobs uid (testConfig_of env uid req tid nm ts qpt).
Proof.
  unfold createTestConfig. intros H S.
  destruct (required (req_testId req)) as [tid|] eqn:E1;
    [|injection H as <- _; discriminate].
  destruct (required (req_name req)) as [nm|] eqn:E2;
    [|injection H as <- _; discriminate].
  destruct (required (req_topics req)) as [ts|] eqn:E3;
    [|injection H as <- _; discriminate].
  destruct (required (req_questionsPerTopic req)) as [qpt|] eqn:E4;
    [|injection H as <- _; discriminate].
  destruct (invalid_topic ts) as [t|] eqn:E5; [injection H as <- _; discriminate|].
  injection H as <- <-.
  apply required_Some in E1, E2, E3, E4.
  exists tid, nm, ts, qpt. intuition.
Qed.

Lemma or_default_number (x : option Z) (d : Z) :
  (forall v, x = Some v -> v <> 0 -> or_default x d = v) /\
  (x = None \/ x = Some 0 -> or_default x d = d).
Proof.
  unfold or_default, truthy, ToBoolean_number. split.
  - intros v -> N. apply Z.eqb_neq in N. now rewrite N.
  - intros [->| ->]; reflexivity.
Qed.

Lemma push_no_owner jobs uid cfg :
  (forall job, In job jobs -> job_company job <> uid) ->
  Job_findOneAndUpdate_push jobs uid cfg = jobs.
Proof.
  induction jobs as [|job rest IH]; simpl; intro H; [reflexivity|].
  destruct (String.eqb (job_company job) uid) eqn:E.
  - apply String.eqb_eq in E. destruct (H job); auto.
  - f_equal. apply IH. intros j Hj. apply H. now right.
Qed.

Lemma push_first_owner before job after uid cfg :
  job_company job = uid ->
  (forall j, In j before -> job_company j <> uid) ->
  Job_findOneAndUpdate_push (before ++ job :: after) uid cfg =
  (before ++ push_quest job cfg :: after)%list.
Proof.
  intros O. induction before as [|b rest IH]; simpl; intro H.
  - rewrite O, String.eqb_refl. reflexivity.
  - destruct (String.eqb (job_company b) uid) eqn:E.
    + apply String.eqb_eq in E. destruct (H b); auto.
    + f_equal. apply IH. intros j Hj. apply H. now right.
Qed.

Lemma own_property_None (k : string) (table : list (string * string)) :
  own_property k table = None <-> ~ In k (map fst table).
Proof.
  induction table as [|[k' v] rest IH]; simpl; [tauto|].
  destruct (String.eqb k k') eqn:E.
  - apply String.eqb_eq in E. subst. split; [discriminate|tauto].
  - apply String.eqb_neq in E. rewrite IH. intuition congruence.
Qed.

Lemma endpoints_truthy (k endpoint : string) :
  own_property k AVAILABLE_TOPICS = Some endpoint -> truthy endpoint = true.
Proof.
  unfold AVAILABLE_TOPICS; simpl.
  repeat match goal with
         | |- context [if String.eqb k ?s then _ else _] => destruct (String.eqb k s)
         end; intro H; try discriminate; injection H as <-; reflexivity.
Qed.

(** A name fails the validation exactly when it is neither a key of the
    table nor a property name of [Object.prototype]. *)
Lemma AVAILABLE_TOPICS_get_falsy (topic : string) :
  truthy (AVAILABLE_TOPICS_get topic) = false <->
  ~ In topic (map fst AVAILABLE_TOPICS) /\ ~ In topic Object_prototype.
Proof.
  unfold AVAILABLE_TOPICS_get.
  destruct (own_property topic AVAILABLE_TOPICS) as [e|] eqn:O.
  - unfold truthy, ToBoolean_property. rewrite (endpoints_truthy _ O).
    split; [discriminate|]. intros [N _]. apply own_property_None in N. congruence.
  - apply own_property_None in O.
    destruct (existsb (String.eqb topic) Object_prototype) eqn:X.
    + split; [discriminate|]. intros [_ N]. destruct N.
      apply existsb_exists in X. destruct X as (x & Hx & E).
      apply String.eqb_eq in E. now subst.
    + split; [|reflexivity]. intros _. split; auto. intro I.
      assert (existsb (String.eqb topic) Object_prototype = true); [|congruence].
      apply existsb_exists. exists topic. split; auto. apply String.eqb_refl.
Qed.


Lemma createTestConfig_accepts env jobs uid req tid nm ts qpt :
  req_testId req = Some tid -> tid <> EmptyString ->
  req_name req = Some nm -> nm <> EmptyString ->
  req_topics req = Some ts ->
  req_questionsPerTopic req = Some qpt -> qpt <> 0 ->
  invalid_topic ts = None ->
  createTestConfig env jobs uid req =
  (res_json (ConfigBody (testConfig_of env uid req tid nm ts qpt)),
   Job_findOneAndUpdate_push jobs uid (testConfig_of env uid req tid nm ts qpt)).
Proof.
  intros E1 N1 E2 N2 E3 E4 N4 V.
  unfold createTestConfig, required. rewrite E1, E2, E3, E4.
  unfold truthy at 1 2 3 4, ToBoolean_optional, truthy, ToBoolean_string,
    ToBoolean_array, ToBoolean_number.
  destruct tid; [congruence|]. destruct nm; [congruence|].
  apply Z.eqb_neq in N4. rewrite N4. simpl. now rewrite V.
Qed.

Lemma own_property_In (k v : string) (table : list (string * string)) :
  own_property k table = Some v -> In k (map fst table).
Proof.
  intro H. destruct (own_property_None k table) as [_ N].
  induction table as [|[k' v'] rest IH]; simpl in *; [discriminate|].
  destruct (String.eqb k k') eqn:E.
  - apply String.eqb_eq in E. auto.
  - right. apply IH; auto. intro M. apply own_property_None. exact M.
Qed.

(** A name passes the validation exactly when it is a key of the table or
    a property name of [Object.prototype]. *)
Lemma AVAILABLE_TOPICS_get_truthy (topic : string) :
  truthy (AVAILABLE_TOPICS_get topic) = true ->
  In topic (map fst AVAILABLE_TOPICS) \/ In topic Object_prototype.
Proof.
  unfold AVAILABLE_TOPICS_get.
  destruct (own_property topic AVAILABLE_TOPICS) as [e|] eqn:O.
  - intros _. left. exact (own_property_In _ _ O).
  - destruct (existsb (String.eqb topic) Object_prototype) eqn:X; [|discriminate].
    intros _. right. apply existsb_exists in X. destruct X as (x & Hx & E).
    apply String.eqb_eq in E. now subst.
Qed.

Lemma find_first (A : Type) (f : A -> bool) (l : list A) (x : A) :
  find f l = Some x ->
  exists before after,
    l = (before ++ x :: after)%list /\ f x = true /\
    forall y, In y before -> f y = false.
Proof.
  induction l as [|a l IH]; simpl; [discriminate|].
  destruct (f a) eqn:E.
  - intro H; injection H as <-. exists [], l. simpl. repeat split; auto.
    intros y [].
  - intro H. destruct (IH H) as (before & after & -> & Fx & Hb).
    exists (a :: before), after. simpl. repeat split; auto.
    intros y [<-|Hy]; auto.
Qed.

(** X1. What the validation loop does reject: a complete request that
    lists a name which is neither a key of the table nor inherited is
    answered 400 and nothing is stored; the message names the first such
    topic of the list: every topic before it passes the check. *)
Theorem createTestConfig_rejects_unknown_topic env jobs uid req tid nm ts qpt topic :
  req_testId req = Some tid -> tid <> EmptyString ->
  req_name req = Some nm -> nm <> EmptyString ->
  req_topics req = Some ts ->
  req_questionsPerTopic req = Some qpt -> qpt <> 0 ->
  In topic ts ->
  ~ In topic (map fst AVAILABLE_TOPICS) ->
  ~ In topic Object_prototype ->
  exists before first after,
    ts = (before ++ first :: after)%list /\
    (forall t, In t before ->
       In t (map fst AVAILABLE_TOPICS) \/ In t Object_prototype) /\
    ~ In first (map fst AVAILABLE_TOPICS) /\
    ~ In first Object_prototype /\
    createTestConfig env jobs uid req = (res_error 400 ("Invalid topic: " ++ first), jobs).
Proof.
  intros E1 N1 E2 N2 E3 E4 N4 I K P.
  unfold createTestConfig, required. rewrite E1, E2, E3, E4.
  unfold truthy at 1 2 3 4, ToBoolean_optional, truthy, ToBoolean_string,
    ToBoolean_array, ToBoolean_number.
  destruct tid; [congruence|]. destruct nm; [congruence|].
  apply Z.eqb_neq in N4. rewrite N4. simpl.
  destruct (invalid_topic ts) as [first|] eqn:F.
  - unfold invalid_topic in F. apply find_first in F.
    destruct F as (before & after & Hts & Hf & Hb).
    apply negb_true_iff in Hf. apply AVAILABLE_TOPICS_get_falsy in Hf.
    exists before, first, after. destruct Hf. repeat split; auto.
    intros t Ht. apply AVAILABLE_TOPICS_get_truthy.
    specialize (Hb t Ht). now apply negb_false_iff in Hb.
  - exfalso. eapply find_none in F; eauto.
    apply negb_false_iff in F.
    assert (truthy (AVAILABLE_TOPICS_get topic) = false) as Hf
      by (apply AVAILABLE_TOPICS_get_falsy; auto).
    congruence.
Qed.

Lemma createTestConfig_rejects_unknown_topic_witness :
  exists before first after,
    ["Age"; "Unknown Topic"; "Another one"] = (before ++ first :: after)%list /\
    (forall t, In t before ->
       In t (map fst AVAILABLE_TOPICS) \/ In t Object_prototype) /\
    ~ In first (map fst AVAILABLE_TOPICS) /\
    ~ In first Object_prototype /\
    createTestConfig Sample.env Sample.jobs "c1"
      (Sample.request ["Age"; "Unknown Topic"; "Another one"] 5 None) =
    (res_error 400 ("Invalid topic: " ++ first), Sample.jobs).
Proof.
  apply (@createTestConfig_rejects_unknown_topic
           Sample.env Sample.jobs "c1"
           (Sample.request ["Age"; "Unknown Topic"; "Another one"] 5 None)
           "t9" "Aptitude round" ["Age"; "Unknown Topic"; "Another one"] 5 "Another one");
    try reflexivity; try discriminate; simpl; intuition discriminate.
Defined.

(** C6 (the code departs from it). [AVAILABLE_TOPICS[topic]] also finds the
    properties every object inherits, so a topic list that names one of
    them, here [constructor], is not rejected: the handler answers 200 with
    the configuration and pushes it, although the name is none of the eight
    keys of the table. *)
Theorem createTestConfig_accepts_inherited_name env jobs uid :
  ~ In "constructor" (map fst AVAILABLE_TOPICS) /\
  List.length AVAILABLE_TOPICS = 8%nat /\
  AVAILABLE_TOPICS_get "constructor" = Inherited "constructor" /\
  createTestConfig env jobs uid (Sample.request ["Age"; "constructor"] 5 None) =
  (res_json
     (ConfigBody
        (testConfig_of env uid (Sample.request ["Age"; "constructor"] 5 None)
           "t9" "Aptitude round" ["Age"; "constructor"] 5)),
   Job_findOneAndUpdate_push jobs uid
     (testConfig_of env uid (Sample.request ["Age"; "constructor"] 5 None)
        "t9" "Aptitude round" ["Age"; "constructor"] 5)).
Proof.
  split; [|split; [|split]]; try reflexivity.
  simpl. intuition discriminate.
Qed.

(** C7 as stated fails: a request that supplies the duration 0 gets the
    duration 45, so a supplied value is not kept and the default is applied
    although the field is present. *)
Lemma createTestConfig_replaces_zero_duration :
  exists cfg jobs',
    createTestConfig Sample.env Sample.jobs "c1" (Sample.request ["Age"] 5 (Some 0)) =
      (res_json (ConfigBody cfg), jobs') /\
    req_duration (Sample.request ["Age"] 5 (Some 0)) = Some 0 /\
    duration cfg = 45 /\
    duration cfg <> 0.
Proof.
  do 2 eexists. split; [reflexivity|]. repeat split. discriminate.
Qed.

(** C7 (amended). In the configuration a passing request gets back,
    [duration] is the supplied value when that is a non-zero number and 45
    when it is absent or 0; [passingScore] likewise with 60; [isActive] is
    false exactly when the request says false; the other fields are the
    supplied ones. *)
Theorem createTestConfig_defaults env jobs uid req r jobs' :
  createTestConfig env jobs uid req = (r, jobs') ->
  status r = 200 ->
  exists cfg,
    json r = ConfigBody cfg /\
    (forall d, req_duration req = Some d -> d <> 0 -> duration cfg = d) /\
    (req_duration req = None \/ req_duration req = Some 0 -> duration cfg = 45) /\
    (forall p, req_passingScore req = Some p -> p <> 0 -> passingScore cfg = p) /\
    (req_passingScore req = None \/ req_passingScore req = Some 0 -> passingScore cfg = 60) /\
    (isActive cfg = false <-> req_isActive req = Some false) /\
    req_testId req = Some (testId cfg) /\
    req_name req = Some (name cfg) /\
    req_topics req = Some (topics cfg) /\
    req_questionsPerTopic req = Some (questionsPerTopic cfg) /\
    description cfg = req_description req /\
    company cfg = uid.
Proof.
  intros H S.
  destruct (createTestConfig_200 _ _ _ _ H S)
    as (tid & nm & ts & qpt & E1 & _ & E2 & _ & E3 & E4 & _ & _ & -> & _).
  eexists. split; [reflexivity|]. simpl.
  destruct (or_default_number (req_duration req) 45) as [D1 D2].
  destruct (or_default_number (req_passingScore req) 60) as [P1 P2].
  repeat split; auto.
  - destruct (req_isActive req) as [[|]|]; simpl; congruence.
  - intros ->. reflexivity.
Qed.

Lemma createTestConfig_defaults_witness :
  exists cfg,
    json (fst (createTestConfig Sample.env Sample.jobs "c1" (Sample.request ["Age"] 5 None))) =
      ConfigBody cfg /\
    duration cfg = 45 /\ passingScore cfg = 70 /\ isActive cfg = true.
Proof.
  destruct (@createTestConfig_defaults
              Sample.env Sample.jobs "c1" (Sample.request ["Age"] 5 None) _ _
              (surjective_pairing _) eq_refl)
    as (cfg & Hj & _ & Hd & Hp & _ & Ha & _).
  exists cfg. split; [exact Hj|]. split; [apply Hd; left; reflexivity|].
  split; [apply (Hp 70); [reflexivity|discriminate]|].
  destruct (isActive cfg); [reflexivity|].
  destruct Ha as [Ha _]. specialize (Ha eq_refl). discriminate Ha.
Defined.

(** C10. A request whose [questionsPerTopic] is 0 is answered 400 with
    Missing required fields, whatever its other fields, and stores
    nothing; so is one whose [testId] or [name] is the empty string, and
    one that leaves a required field out: the check tests truthiness, not
    presence. *)
Theorem createTestConfig_falsy_is_missing env jobs uid req :
  req_questionsPerTopic req = Some 0 \/ req_questionsPerTopic req = None \/
  req_testId req = Some EmptyString \/ req_testId req = None \/
  req_name req = Some EmptyString \/ req_name req = None \/
  req_topics req = None ->
  createTestConfig env jobs uid req = (res_error 400 "Missing required fields", jobs).
Proof.
  unfold createTestConfig.
  intros [E|[E|[E|[E|[E|[E|E]]]]]]; rewrite E; simpl;
    repeat match goal with
           | |- context [match required ?x with _ => _ end] => destruct (required x)
           end; reflexivity.
Qed.

Lemma createTestConfig_falsy_is_missing_witness :
  req_topics (Sample.request ["Age"] 0 None) = Some ["Age"] /\
  invalid_topic ["Age"] = None /\
  createTestConfig Sample.env Sample.jobs "c1" (Sample.request ["Age"] 0 None) =
    (res_error 400 "Missing required fields", Sample.jobs).
Proof.
  split; [reflexivity|]. split; [reflexivity|].
  apply (@createTestConfig_falsy_is_missing
           Sample.env Sample.jobs "c1" (Sample.request ["Age"] 0 None)).
  left. reflexivity.
Defined.

(** ** The store after a company-tests request *)



Lemma Job_findOne_by_company_push jobs uid cfg :
  Job_findOne_by_company (Job_findOneAndUpdate_push jobs uid cfg) uid =
  option_map (fun job => push_quest job cfg) (Job_findOne_by_company jobs uid).
Proof.
  unfold Job_findOne_by_company.
  induction jobs as [|job rest IH]; simpl; [reflexivity|].
  destruct (String.eqb (job_company job) uid) eqn:E; simpl; rewrite E; auto.
Qed.

Lemma or_default_value (x : option Z) (d : Z) :
  or_default x d = match x with
                   | Some v => if v =? 0 then d else v
                   | None => d
                   end.
Proof.
  unfold or_default, truthy, ToBoolean_number.
  destruct x as [v|]; [|reflexivity]. now destruct (v =? 0).
Qed.

(** C8 (the code departs from it). The configuration the handler returns
    is not what it stores. For the actor c1, who owns a job, the 200
    response carries the configuration with its [testId], [company],
    [name], [isActive] and [createdAt]; the only change of the store is one
    entry at the end of the quests of that job, and the entry is the
    configuration cast to the quest schema: description, duration, topics,
    quota and passing score, with none of those five fields. *)
Theorem createTestConfig_stores_cast_entry :
  createTestConfig Sample.env Fixtures.jobs "c1" (Sample.request ["Age"] 5 None) =
  (res_json
     (ConfigBody
        {| testId := "t9";
           company := "c1";
           name := "Aptitude round";
           description := None;
           duration := 45;
           topics := ["Age"];
           questionsPerTopic := 5;
           passingScore := 70;
           isActive := true;
           createdAt := "2024-01-01T00:00:00.000Z" |}),
   match Fixtures.jobs with
   | first :: others =>
       {| job_company := job_company first;
          title := title first;
          department := department first;
          location := location first;
          job_type := job_type first;
          job_description := job_description first;
          requirements := requirements first;
          salary_min := salary_min first;
          salary_max := salary_max first;
          quests :=
            quests first ++
            [ {| quest_type := None;
                 quest_title := None;
                 quest_description := None;
                 quest_difficulty := "Medium";
                 quest_duration := Some 45;
                 quest_questions := None;
                 quest_passingScore := Some 70;
                 quest_enabled := true;
                 quest_topics := ["Age"];
                 quest_questionsPerTopic := 5 |} ];
          job_isActive := job_isActive first;
          job_createdAt := job_createdAt first |} :: others
   | [] => []
   end) /\
  job_company (hd (Sample.job "" []) Fixtures.jobs) = "c1".
Proof. split; reflexivity. Qed.

(** X2. The frame of a company-tests request. A complete request whose
    topics all pass the check is answered 200 with the configuration built
    from it, and the store changes in one place at most: the first job of
    the actor gets one entry at the end of its quests, which holds the
    request's topics, quota and description and the configuration's
    duration and passing score; every other field of that job and every
    other job stay, and without a job of the actor the store stays as it
    was. *)
Theorem createTestConfig_changes_one_quest_list env jobs uid req tid nm ts qpt :
  req_testId req = Some tid -> tid <> EmptyString ->
  req_name req = Some nm -> nm <> EmptyString ->
  req_topics req = Some ts ->
  req_questionsPerTopic req = Some qpt -> qpt <> 0 ->
  (forall t, In t ts -> In t (map fst AVAILABLE_TOPICS) \/ In t Object_prototype) ->
  exists cfg entry,
    fst (createTestConfig env jobs uid req) = res_json (ConfigBody cfg) /\
    testId cfg = tid /\ name cfg = nm /\ company cfg = uid /\
    topics cfg = ts /\ questionsPerTopic cfg = qpt /\
    duration cfg =
      match req_duration req with
      | Some d => if d =? 0 then 45 else d
      | None => 45
      end /\
    passingScore cfg =
      match req_passingScore req with
      | Some p => if p =? 0 then 60 else p
      | None => 60
      end /\
    quest_topics entry = ts /\
    quest_questionsPerTopic entry = qpt /\
    quest_description entry = req_description req /\
    quest_duration entry = Some (duration cfg) /\
    quest_passingScore entry = Some (passingScore cfg) /\
    (Job_findOne_by_company jobs uid = None ->
     snd (createTestConfig env jobs uid req) = jobs) /\
    (forall before job after,
       jobs = (before ++ job :: after)%list ->
       job_company job = uid ->
       (forall j, In j before -> job_company j <> uid) ->
       exists job',
         snd (createTestConfig env jobs uid req) = (before ++ job' :: after)%list /\
         quests job' = (quests job ++ [entry])%list /\
         job_frame job' = job_frame job).
Proof.
  intros E1 N1 E2 N2 E3 E4 N4 V.
  assert (invalid_topic ts = None) as I.
  { unfold invalid_topic. destruct (find _ ts) as [t|] eqn:F; [|reflexivity].
    apply find_some in F. destruct F as [Hin F].
    apply negb_true_iff in F. apply AVAILABLE_TOPICS_get_falsy in F.
    destruct (V t Hin); tauto. }
  rewrite (@createTestConfig_accepts env jobs uid req tid nm ts qpt E1 N1 E2 N2 E3 E4 N4 I).
  exists (testConfig_of env uid req tid nm ts qpt),
    (cast_quest (testConfig_of env uid req tid nm ts qpt)).
  simpl. rewrite !or_default_value.
  repeat (split; [reflexivity|]). split.
  - intro O. apply push_no_owner. intros job Hin Hc.
    unfold Job_findOne_by_company in O.
    eapply find_none in O; eauto. apply String.eqb_neq in O. congruence.
  - intros before job after -> O N.
    exists (push_quest job (testConfig_of env uid req tid nm ts qpt)).
    split; [now apply push_first_owner|]. split; reflexivity.
Qed.

Lemma createTestConfig_changes_one_quest_list_witness :
  exists first job' last,
    Fixtures.jobs = [first; hd first (tl Fixtures.jobs); last] /\
    snd (createTestConfig Sample.env Fixtures.jobs "c2"
           (Fixtures.request "t6" ["Calendars"] None)) = [first; job'; last] /\
    quests (hd first (tl Fixtures.jobs)) = [] /\
    map quest_topics (quests job') = [["Calendars"]] /\
    map quest_questionsPerTopic (quests job') = [1] /\
    map quest_duration (quests job') = [Some 30] /\
    job_frame job' = job_frame (hd first (tl Fixtures.jobs)).
Proof.
  destruct (@createTestConfig_changes_one_quest_list
              Sample.env Fixtures.jobs "c2" (Fixtures.request "t6" ["Calendars"] None)
              "t6" "Second round" ["Calendars"] 1
              eq_refl ltac:(discriminate) eq_refl ltac:(discriminate) eq_refl eq_refl
              ltac:(discriminate)
              ltac:(intros t [<-|[]]; left; simpl; tauto))
    as (cfg & entry & _ & _ & _ & _ & _ & _ & Hd & _ & Ht & Hq & _ & Hdur & _ & _ & Hown).
  destruct (Hown [Sample.job "c1" [Sample.quest "t1" ["Age"] 2 true]]
              (hd (Sample.job "" []) (tl Fixtures.jobs))
              [Sample.job "c2" [Sample.quest "t5" ["Calendars"] 1 true]]
              eq_refl eq_refl
              ltac:(intros j [<-|[]]; discriminate))
    as (job' & Hs & Hqs & Hf).
  exists (Sample.job "c1" [Sample.quest "t1" ["Age"] 2 true]), job',
    (Sample.job "c2" [Sample.quest "t5" ["Calendars"] 1 true]).
  split; [reflexivity|]. split; [exact Hs|]. split; [reflexivity|].
  rewrite Hqs. simpl. rewrite Ht, Hq, Hdur, Hd. simpl.
  repeat split. exact Hf.
Defined.

(** ** Job listings *)



(** ** The topic list and the validation *)




(** ** Session start *)

(** No stored quest has a test id: the schema keeps none. *)
Lemma Job_findOne_by_testId_none (jobs : list Job) (tid : string) :
  Job_findOne_by_testId jobs tid = None.
Proof.
  unfold Job_findOne_by_testId.
  induction jobs as [|job rest IH]; simpl; [reflexivity|].
  assert (existsb (has_testId tid) (quests job) = false) as ->; [|exact IH].
  induction (quests job) as [|q qs IHq]; simpl; auto.
Qed.

Lemma matched_quest_none (jobs : list Job) (tid : string) :
  matched_quest jobs tid = None.
Proof.
  unfold matched_quest. now rewrite Job_findOne_by_testId_none.
Qed.

(** So the handler finds no job for any id and answers 404. *)
Lemma startSession_not_found_always env jobs uid tid w :
  startSession env jobs uid tid w = (res_error 404 "Test not found", w).
Proof.
  unfold startSession. now rewrite Job_findOne_by_testId_none.
Qed.

(** C3 (the code departs from it). A test that was created enabled and is
    stored cannot be started. After a 200 for a request that does not say
    [isActive: false], from an actor who owns a job, the configuration
    returned has the id and is active and its entry is in the quests of
    that job; a session start for the id still answers 404, Test not
    found, and fetches nothing. *)
Theorem startSession_enabled_test_not_found env env2 jobs uid req r jobs' tid job user w :
  createTestConfig env jobs uid req = (r, jobs') ->
  status r = 200 ->
  req_testId req = Some tid ->
  req_isActive req <> Some false ->
  Job_findOne_by_company jobs uid = Some job ->
  exists cfg,
    json r = ConfigBody cfg /\
    testId cfg = tid /\
    isActive cfg = true /\
    Job_findOne_by_company jobs' uid = Some (push_quest job cfg) /\
    In (cast_quest cfg) (quests (push_quest job cfg)) /\
    startSession env2 jobs' user tid w = (res_error 404 "Test not found", w).
Proof.
  intros H S T A O.
  destruct (createTestConfig_200 _ _ _ _ H S)
    as (t & nm & ts & qpt & E1 & _ & _ & _ & _ & _ & _ & _ & -> & ->).
  rewrite T in E1; injection E1 as <-.
  exists (testConfig_of env uid req tid nm ts qpt). simpl.
  repeat split.
  - destruct (req_isActive req) as [[|]|]; try reflexivity. now destruct A.
  - now rewrite Job_findOne_by_company_push, O.
  - apply in_or_app. right. now left.
  - apply startSession_not_found_always.
Qed.

Lemma startSession_enabled_test_not_found_witness :
  exists cfg,
    json (fst (createTestConfig Sample.env Fixtures.jobs "c1"
                 (Fixtures.request "t6" ["Calendars"] (Some true)))) = ConfigBody cfg /\
    testId cfg = "t6" /\
    isActive cfg = true /\
    startSession Sample.env
      (snd (createTestConfig Sample.env Fixtures.jobs "c1"
              (Fixtures.request "t6" ["Calendars"] (Some true)))) "u1" "t6" Sample.w0 =
    (res_error 404 "Test not found", Sample.w0).
Proof.
  destruct (@startSession_enabled_test_not_found
              Sample.env Sample.env Fixtures.jobs "c1"
              (Fixtures.request "t6" ["Calendars"] (Some true)) _ _ "t6"
              (Sample.job "c1" [Sample.quest "t1" ["Age"] 2 true]) "u1" Sample.w0
              (surjective_pairing _) eq_refl eq_refl ltac:(discriminate) eq_refl)
    as (cfg & Hj & Ht & Ha & _ & _ & Hs).
  exists cfg. auto.
Defined.








(** ** Login and registration *)

(** C9. Login answers 401 when the email is unknown and when the email is
    known and the password does not match, with the same body in both
    cases: the two responses are equal. *)
Theorem login_failures_indistinguishable (User : Type) (user_public : User -> PublicUser)
    (User_findOne : value -> outcome (option User))
    (comparePassword : User -> value -> outcome bool)
    (generateToken : User -> outcome string)
    (unknown known password password' : value) (user : User) :
  User_findOne unknown = Returned None ->
  User_findOne known = Returned (Some user) ->
  comparePassword user password' = Returned false ->
  login user_public User_findOne comparePassword generateToken unknown password =
    res_error 401 "Invalid credentials" /\
  login user_public User_findOne comparePassword generateToken known password' =
    res_error 401 "Invalid credentials" /\
  login user_public User_findOne comparePassword generateToken unknown password =
  login user_public User_findOne comparePassword generateToken known password'.
Proof.
  intros U K P. unfold login. rewrite U, K, P. auto.
Qed.

Lemma login_failures_indistinguishable_witness :
  login (fun u => u) Sample.findOne Sample.comparePassword Sample.generateToken
    (VStr "nobody@acme.example") (VStr "correct horse") =
  login (fun u => u) Sample.findOne Sample.comparePassword Sample.generateToken
    (VStr "hr@acme.example") (VStr "battery staple").
Proof.
  apply (@login_failures_indistinguishable
           PublicUser (fun u => u) Sample.findOne Sample.comparePassword
           Sample.generateToken
           (VStr "nobody@acme.example") (VStr "hr@acme.example")
           (VStr "correct horse") (VStr "battery staple") Sample.acme);
    reflexivity.
Defined.

(** X15. Registering twice. When the first registration of an email found
    no such user and saved the new one, and the saved user is then found
    by that email, the store is the saved one whether the response is 201
    or, the token signer failing after the save, 500; and every further
    registration of the email is answered 400, Email already registered,
    and stores nothing. *)
Theorem register_twice (User UserStore : Type) (user_public : User -> PublicUser)
    (User_findOne : UserStore -> value -> outcome (option User))
    (User_new : value -> value -> value -> value -> value -> User)
    (User_save : UserStore -> User -> outcome UserStore)
    (generateToken : User -> outcome string)
    (users users' : UserStore) (email password name role companyName : value) :
  User_findOne users email = Returned None ->
  User_save users (User_new email password name role companyName) = Returned users' ->
  (exists u, User_findOne users' email = Returned (Some u)) ->
  snd (register user_public User_findOne User_new User_save generateToken
         users email password name role companyName) = users' /\
  (status (fst (register user_public User_findOne User_new User_save generateToken
                  users email password name role companyName)) = 201 <->
   exists token,
     generateToken (User_new email password name role companyName) = Returned token) /\
  (status (fst (register user_public User_findOne User_new User_save generateToken
                  users email password name role companyName)) <> 201 ->
   fst (register user_public User_findOne User_new User_save generateToken
          users email password name role companyName) =
   res_error 500 "Registration failed") /\
  forall password2 name2 role2 companyName2,
    register user_public User_findOne User_new User_save generateToken
      users' email password2 name2 role2 companyName2 =
    (res_error 400 "Email already registered", users').
Proof.
  intros F S (u & F'). unfold register. rewrite F, S, F'.
  destruct (generateToken (User_new email password name role companyName)) as [tk|e];
    simpl; repeat split; eauto; try discriminate.
  - intro N. now destruct N.
  - intros (t & H). discriminate.
Qed.

Lemma register_twice_witness :
  status (fst (register fst Fixtures.findOne Fixtures.new Fixtures.save Fixtures.sign_fails
                 [] (VStr "hr@acme.example") (VStr "pw") (VStr "HR") (VStr "company")
                 (VStr "Acme"))) = 500 /\
  fst (register fst Fixtures.findOne Fixtures.new Fixtures.save Fixtures.sign_fails
         (snd (register fst Fixtures.findOne Fixtures.new Fixtures.save Fixtures.sign_fails
                 [] (VStr "hr@acme.example") (VStr "pw") (VStr "HR") (VStr "company")
                 (VStr "Acme")))
         (VStr "hr@acme.example") (VStr "pw") (VStr "HR") (VStr "company") (VStr "Acme")) =
  res_error 400 "Email already registered".
Proof.
  split; [reflexivity|].
  destruct (@register_twice
              Fixtures.Account (list Fixtures.Account) fst
              Fixtures.findOne Fixtures.new Fixtures.save Fixtures.sign_fails
              [] (snd (register fst Fixtures.findOne Fixtures.new Fixtures.save
                         Fixtures.sign_fails [] (VStr "hr@acme.example") (VStr "pw")
                         (VStr "HR") (VStr "company") (VStr "Acme")))
              (VStr "hr@acme.example") (VStr "pw") (VStr "HR") (VStr "company") (VStr "Acme")
              eq_refl eq_refl ltac:(eexists; reflexivity))
    as (_ & _ & _ & H).
  now rewrite H.
Defined.

